(** * Verification of dverse-identity (src/src/lib.rs)

    Shallow embedding of the identity crate: key pairs with sign and
    verify over the Ed25519 primitive, and the DID encoding
    [did:dverse:] ++ multibase(base58btc, 0xED 0x01 ++ public key). *)

From Stdlib Require Import String Ascii List PeanoNat NArith Lia Bool.
From Stdlib Require Import Strings.Byte.
Import ListNotations.

(** ** Rust results and panics *)

(** A Rust function returning [Result<T>] either returns [Ok], returns
    [Err], or panics (an out-of-range slice, for instance). *)
Inductive result (T E : Type) : Type :=
| Ok (x : T)
| Err (e : E).
Arguments Ok {T E} x.
Arguments Err {T E} e.

(** ** Positional numbers (the arithmetic under base-x / bs58)

    A big-endian digit string in base [b] denotes
    [fold_left (fun acc d => acc * b + d) ds 0]; the converse conversion
    emits the minimal digit string (no leading zero digit, empty for 0).
    The recursion is bounded by the bit size of the number, which is
    enough because every base used is at least 2. *)
Module Digits.

Definition value_be (b : N) (ds : list N) : N :=
  fold_left (fun acc d => (acc * b + d)%N) ds 0%N.

Fixpoint to_digits_le (b : N) (fuel : nat) (n : N) : list N :=
  match fuel with
  | O => []
  | S fuel' =>
      match n with
      | N0 => []
      | _ => (n mod b)%N :: to_digits_le b fuel' (n / b)%N
      end
  end.

Definition to_digits (b : N) (n : N) : list N :=
  rev (to_digits_le b (N.size_nat n) n).

(** little-endian value, used in the proofs *)
Fixpoint value_le (b : N) (ds : list N) : N :=
  match ds with
  | [] => 0%N
  | d :: ds' => (d + b * value_le b ds')%N
  end.

(** a little-endian digit string is canonical when every digit is below
    the base and the most significant digit is not zero *)
Definition canonical_le (b : N) (ds : list N) : Prop :=
  Forall (fun d => (d < b)%N) ds /\ (ds = [] \/ last ds 0%N <> 0%N).

End Digits.

(** ** The multibase crate (0.9.3)

    [multibase::decode] reads the first character as the base code,
    fails with [UnknownBase] when it names no base, and otherwise decodes
    the rest with that base; [multibase::encode] prepends the code. Only
    base58btc (through base-x) matters to this crate; the decoders of the
    other bases are left as a parameter [decode_other]. *)
(** [&s[n..]] on a string (strings are UTF-8 bytes; the slices
    of this crate and of multibase fall on character boundaries) *)
Fixpoint str_drop (n : nat) (s : string) : string :=
  match n, s with
  | O, _ => s
  | S _, EmptyString => EmptyString
  | S n', String _ s' => str_drop n' s'
  end.

(** [&s[..n]] on a string *)
Fixpoint str_take (n : nat) (s : string) : string :=
  match n, s with
  | O, _ => EmptyString
  | S _, EmptyString => EmptyString
  | S n', String c s' => String c (str_take n' s')
  end.

Module Multibase.

Inductive Base : Type :=
| Identity | Base2 | Base8 | Base10
| Base16Lower | Base16Upper
| Base32Lower | Base32Upper | Base32PadLower | Base32PadUpper
| Base32HexLower | Base32HexUpper | Base32HexPadLower | Base32HexPadUpper
| Base32Z | Base36Lower | Base36Upper
| Base58Flickr | Base58Btc
| Base64 | Base64Pad | Base64Url | Base64UrlPad
| Base45 | Base256Emoji.

Definition base_eq_dec (x y : Base) : {x = y} + {x <> y}.
Proof. decide equality. Defined.

(** [Base::code], a [char], as its UTF-8 bytes *)
Definition code (b : Base) : string :=
  match b with
  | Identity => String "000"%char "" | Base2 => "0" | Base8 => "7" | Base10 => "9"
  | Base16Lower => "f" | Base16Upper => "F"
  | Base32Lower => "b" | Base32Upper => "B"
  | Base32PadLower => "c" | Base32PadUpper => "C"
  | Base32HexLower => "v" | Base32HexUpper => "V"
  | Base32HexPadLower => "t" | Base32HexPadUpper => "T"
  | Base32Z => "h" | Base36Lower => "k" | Base36Upper => "K"
  | Base58Flickr => "Z" | Base58Btc => "z"
  | Base64 => "m" | Base64Pad => "M" | Base64Url => "u" | Base64UrlPad => "U"
  | Base45 => "R"
  | Base256Emoji => (* U+1F680 *) String "240" (String "159" (String "154" (String "128" "")))
  end%string.

Definition all_bases : list Base :=
  [Identity; Base2; Base8; Base10; Base16Lower; Base16Upper;
   Base32Lower; Base32Upper; Base32PadLower; Base32PadUpper;
   Base32HexLower; Base32HexUpper; Base32HexPadLower; Base32HexPadUpper;
   Base32Z; Base36Lower; Base36Upper; Base58Flickr; Base58Btc;
   Base64; Base64Pad; Base64Url; Base64UrlPad; Base45; Base256Emoji].

(** [Base::from_code] *)
Definition from_code (c : string) : option Base :=
  find (fun b => String.eqb (code b) c) all_bases.

(** [multibase::Error]; a base-x decode failure becomes
    [InvalidBaseString]; the [char] of [UnknownBase] is kept as its
    UTF-8 bytes. *)
Inductive Error : Type :=
| UnknownBase (c : string)
| InvalidBaseString.

(** *** base58btc (the bitcoin alphabet) *)

Definition BASE58_BITCOIN : string :=
  "123456789ABCDEFGHJKLMNPQRSTUVWXYZabcdefghijkmnopqrstuvwxyz".

Fixpoint index_of (c : ascii) (l : list ascii) : option N :=
  match l with
  | [] => None
  | c' :: l' =>
      if Ascii.eqb c' c then Some 0%N
      else option_map N.succ (index_of c l')
  end.

(** alphabet lookup of one character *)
Definition b58_lookup (c : ascii) : option N :=
  index_of c (list_ascii_of_string BASE58_BITCOIN).

(** alphabet character of one digit *)
Definition b58_char (d : N) : ascii :=
  nth (N.to_nat d) (list_ascii_of_string BASE58_BITCOIN) "1"%char.

Fixpoint b58_digits (cs : list ascii) : option (list N) :=
  match cs with
  | [] => Some []
  | c :: cs' =>
      match b58_lookup c with
      | None => None
      | Some d => option_map (cons d) (b58_digits cs')
      end
  end.

Fixpoint count_leading {A} (eqb : A -> A -> bool) (z : A) (l : list A) : nat :=
  match l with
  | [] => O
  | x :: l' => if eqb x z then S (count_leading eqb z l') else O
  end.

(** [(val & 0xFF) as u8] *)
Definition byte_of_N (n : N) : byte :=
  match Byte.of_N (N.land n 255) with Some b => b | None => x00 end.

(** base-x [decode]: every character must be in the alphabet; the
    number they spell is written as minimal big-endian bytes, after one
    zero byte per leading ['1']. *)
Definition base58btc_decode (s : string) : result (list byte) Error :=
  let cs := list_ascii_of_string s in
  match b58_digits cs with
  | None => Err InvalidBaseString
  | Some ds =>
      Ok (repeat x00 (count_leading Ascii.eqb "1"%char cs)
          ++ map byte_of_N (Digits.to_digits 256 (Digits.value_be 58 ds)))
  end.

(** base-x [encode]: one ['1'] per leading zero byte, then the minimal
    base-58 digits of the big-endian number of the input. *)
Definition base58btc_encode (input : list byte) : string :=
  string_of_list_ascii
    (repeat "1"%char (count_leading Byte.eqb x00 input)
     ++ map b58_char (Digits.to_digits 58
                        (Digits.value_be 256 (map Byte.to_N input)))).

(** [char::len_utf8] of the character whose UTF-8 encoding starts
    with the byte [lead] *)
Definition utf8_len (lead : ascii) : nat :=
  let n := nat_of_ascii lead in
  if Nat.ltb n 128 then 1
  else if Nat.ltb n 224 then 2
  else if Nat.ltb n 240 then 3
  else 4.

(** [input.chars().next()] with [&input[code.len_utf8()..]]: the first
    character, as its UTF-8 bytes, and the text after it *)
Definition first_char (input : string) : option (string * string) :=
  match input with
  | EmptyString => None
  | String lead _ =>
      Some (str_take (utf8_len lead) input, str_drop (utf8_len lead) input)
  end.

Section Decode.

(** decoders of the bases other than base58btc *)
Variable decode_other : Base -> string -> result (list byte) Error.

Definition base_decode (b : Base) (s : string) : result (list byte) Error :=
  match b with
  | Base58Btc => base58btc_decode s
  | _ => decode_other b s
  end.

(** [multibase::decode] *)
Definition decode (input : string) : result (Base * list byte) Error :=
  match first_char input with
  | None => Err InvalidBaseString
  | Some (c, rest) =>
      match from_code c with
      | None => Err (UnknownBase c)
      | Some base =>
          match base_decode base rest with
          | Ok decoded => Ok (base, decoded)
          | Err e => Err e
          end
      end
  end.

End Decode.

(** [multibase::encode(Base::Base58Btc, input)] *)
Definition encode_base58btc (input : list byte) : string :=
  (code Base58Btc ++ base58btc_encode input)%string.

End Multibase.

(** ** The Ed25519 primitive (ed25519_dalek), an external collaborator

    Fixed-size byte arrays are lists of the given length; the key and
    signature types and the operations on them are left abstract. *)

Definition array (n : nat) : Type := { l : list byte | length l = n }.

(** [<&[u8; n]>::try_from(&[u8])]: succeeds exactly on length [n] *)
Definition try_into_array (n : nat) (l : list byte) : option (array n) :=
  match Nat.eq_dec (length l) n with
  | left H => Some (exist _ l H)
  | right _ => None
  end.

(** the internal error kinds behind [ed25519_dalek::SignatureError] *)
Inductive DalekSignatureError : Type :=
| PointDecompressionError
| ScalarFormatError
| BytesLengthError
| VerifyError
| MismatchedKeypairError.

Class Ed25519 : Type := {
  SigningKey : Type;
  VerifyingKey : Type;
  Signature : Type;
  (** [SigningKey::from_bytes]; [SigningKey::generate] is [from_bytes]
      of 32 bytes drawn from the random source *)
  signing_key_from_bytes : array 32 -> SigningKey;
  signing_key_to_bytes : SigningKey -> array 32;
  signing_key_verifying_key : SigningKey -> VerifyingKey;
  signing_key_sign : SigningKey -> list byte -> Signature;
  verifying_key_to_bytes : VerifyingKey -> array 32;
  verifying_key_from_bytes : array 32 -> result VerifyingKey DalekSignatureError;
  verifying_key_verify :
    VerifyingKey -> list byte -> Signature -> result unit DalekSignatureError;
  signature_to_bytes : Signature -> array 64;
  signature_from_bytes : array 64 -> Signature
}.

(** ** The identity crate *)

(** [IdentityError]. The [String] messages built with [format!] are
    represented by the data they are formatted from. *)
Inductive IdentityError : Type :=
| KeyGenerationError (msg : string)
| SignatureError (msg : string)
| InvalidKey (msg : string)
| InvalidDidFormat (did : string)
| EncodingError (msg : string)
| DecodingError (msg : string)
| UnsupportedMulticodec (prefix : list byte)
| UnsupportedMultibase (base : Multibase.Base)
| DalekError (err : DalekSignatureError)
| MultibaseError (err : Multibase.Error)
| ArrayConversionError (msg : string).

(** outcome of a call returning [Result<T>]: a value, an error, or a
    panic *)
Inductive M (A : Type) : Type :=
| Ret (x : A)
| Throw (e : IdentityError)
| Panic.
Arguments Ret {A} x.
Arguments Throw {A} e.
Arguments Panic {A}.

Definition bind {A B} (m : M A) (k : A -> M B) : M B :=
  match m with
  | Ret x => k x
  | Throw e => Throw e
  | Panic => Panic
  end.

Notation "'let*' x := m 'in' k" := (bind m (fun x => k))
  (at level 200, x name, m at level 100, k at level 200).

(** the [?] operator on a [Result<_, E>] with [From<E> for IdentityError] *)
Definition lift {A E} (conv : E -> IdentityError) (r : result A E) : M A :=
  match r with
  | Ok x => Ret x
  | Err e => Throw (conv e)
  end.

(** [&v[a..b]], panicking out of range *)
Definition slice {A} (v : list A) (a b : nat) : M (list A) :=
  if Nat.leb a b && Nat.leb b (length v) then Ret (firstn (b - a) (skipn a v))
  else Panic.

(** [&v[a..]], panicking out of range *)
Definition slice_from {A} (v : list A) (a : nat) : M (list A) :=
  if Nat.leb a (length v) then Ret (skipn a v) else Panic.


Fixpoint list_byte_eqb (l1 l2 : list byte) : bool :=
  match l1, l2 with
  | [], [] => true
  | b1 :: l1', b2 :: l2' => Byte.eqb b1 b2 && list_byte_eqb l1' l2'
  | _, _ => false
  end.

Record PrivateKey : Type := mkPrivateKey { private_key_0 : list byte }.
Record PublicKey : Type := mkPublicKey { public_key_0 : list byte }.
Record KeyPair : Type := mkKeyPair {
  private_key : PrivateKey;
  public_key : PublicKey
}.
Record Did : Type := mkDid { did_0 : string }.

Module DidImpl.

(** [Did::MULTICODEC_ED25519_PUB] *)
Definition MULTICODEC_ED25519_PUB : list byte := [xed; x01].
(** [Did::DID_DVERSE_PREFIX] *)
Definition DID_DVERSE_PREFIX : string := "did:dverse:".

(** [Did::from_public_key] *)
Definition from_public_key (public_key : PublicKey) : M Did :=
  let prefixed_key_bytes := MULTICODEC_ED25519_PUB ++ public_key_0 public_key in
  let encoded_key := Multibase.encode_base58btc prefixed_key_bytes in
  let did_string := (DID_DVERSE_PREFIX ++ encoded_key)%string in
  Ret (mkDid did_string).

Section ToPublicKey.

Variable decode_other :
  Multibase.Base -> string -> result (list byte) Multibase.Error.

(** [Did::to_public_key]. The [||] is short-circuiting, so its second
    operand slices only when there are at least two bytes; the error
    message of the branch slices [0..2] unconditionally. *)
Definition to_public_key (self : Did) : M PublicKey :=
  if negb (String.prefix DID_DVERSE_PREFIX (did_0 self)) then
    Throw (InvalidDidFormat (did_0 self))
  else
  let encoded_part := str_drop (String.length DID_DVERSE_PREFIX) (did_0 self) in
  let* bd := lift MultibaseError (Multibase.decode decode_other encoded_part) in
  let (base, decoded_bytes) := bd in
  if negb (if Multibase.base_eq_dec base Multibase.Base58Btc then true else false)
  then Throw (UnsupportedMultibase base)
  else
  let* bad_prefix :=
    (if Nat.ltb (length decoded_bytes) (length MULTICODEC_ED25519_PUB) then Ret true
     else
       let* head := slice decoded_bytes 0 (length MULTICODEC_ED25519_PUB) in
       Ret (negb (list_byte_eqb head MULTICODEC_ED25519_PUB))) in
  if bad_prefix then
    let* shown := slice decoded_bytes 0 (length MULTICODEC_ED25519_PUB) in
    Throw (UnsupportedMulticodec shown)
  else
  let* public_key_bytes := slice_from decoded_bytes (length MULTICODEC_ED25519_PUB) in
  Ret (mkPublicKey public_key_bytes).

End ToPublicKey.

End DidImpl.

Module KeyPairImpl.

Section WithDalek.

Context {D : Ed25519}.

(** [KeyPair::generate], given the 32 bytes the random source yields to
    [SigningKey::generate] *)
Definition generate (random_bytes : array 32) : M KeyPair :=
  let signing_key := signing_key_from_bytes random_bytes in
  let verifying_key := signing_key_verifying_key signing_key in
  Ret (mkKeyPair
         (mkPrivateKey (proj1_sig (signing_key_to_bytes signing_key)))
         (mkPublicKey (proj1_sig (verifying_key_to_bytes verifying_key)))).

(** [KeyPair::sign] *)
Definition sign (self : KeyPair) (message : list byte) : M (list byte) :=
  match try_into_array 32 (private_key_0 (private_key self)) with
  | None => Throw (ArrayConversionError "Private key bytes are not 32 bytes long")
  | Some private_key_bytes =>
      let signing_key := signing_key_from_bytes private_key_bytes in
      let signature := signing_key_sign signing_key message in
      Ret (proj1_sig (signature_to_bytes signature))
  end.

(** [KeyPair::verify] *)
Definition verify (self : KeyPair) (message signature : list byte) : M unit :=
  match try_into_array 32 (public_key_0 (public_key self)) with
  | None => Throw (ArrayConversionError "Public key bytes are not 32 bytes long")
  | Some public_key_bytes =>
      let* verifying_key := lift DalekError (verifying_key_from_bytes public_key_bytes) in
      match try_into_array 64 signature with
      | None => Throw (ArrayConversionError "Signature bytes are not 64 bytes long")
      | Some signature_bytes =>
          let signature := signature_from_bytes signature_bytes in
          let* _ := lift DalekError (verifying_key_verify verifying_key message signature) in
          Ret tt
      end
  end.

End WithDalek.

End KeyPairImpl.

(** A toy instance of the primitive, only used to exhibit concrete
    inputs: keys are their bytes, a signature is 64 zero bytes, and every
    signature verifies. *)
Definition zeros64 : array 64 := exist _ (repeat x00 64) eq_refl.

#[local] Instance toy_ed25519 : Ed25519 := {|
  SigningKey := array 32;
  VerifyingKey := array 32;
  Signature := array 64;
  signing_key_from_bytes := fun a => a;
  signing_key_to_bytes := fun a => a;
  signing_key_verifying_key := fun a => a;
  signing_key_sign := fun _ _ => zeros64;
  verifying_key_to_bytes := fun a => a;
  verifying_key_from_bytes := fun a => Ok a;
  verifying_key_verify := fun _ _ _ => Ok tt;
  signature_to_bytes := fun s => s;
  signature_from_bytes := fun s => s
|}.

(** a primitive that accepts no public key, to exhibit the rejection *)
Definition rejecting_ed25519 : Ed25519 := {|
  SigningKey := array 32;
  VerifyingKey := array 32;
  Signature := array 64;
  signing_key_from_bytes := fun a => a;
  signing_key_to_bytes := fun a => a;
  signing_key_verifying_key := fun a => a;
  signing_key_sign := fun _ _ => zeros64;
  verifying_key_to_bytes := fun a => a;
  verifying_key_from_bytes := fun _ => Err PointDecompressionError;
  verifying_key_verify := fun _ _ _ => Ok tt;
  signature_to_bytes := fun s => s;
  signature_from_bytes := fun s => s
|}.

(** a decoder for the other bases that accepts nothing *)
Definition no_other_decoders (_ : Multibase.Base) (_ : string)
  : result (list byte) Multibase.Error :=
  Err Multibase.InvalidBaseString.

(** decoder of the base16 (lower case) alphabet on its two-digit
    example ["00"], used to exhibit a known non-base58btc indicator *)
Definition hex_00_decoder (b : Multibase.Base) (s : string)
  : result (list byte) Multibase.Error :=
  match b, s with
  | Multibase.Base16Lower, "00"%string => Ok [x00]
  | _, _ => Err Multibase.InvalidBaseString
  end.

Definition bytes32 : list byte :=
  [x01; x02; x03; x04; x05; x06; x07; x08; x09; x0a; x0b; x0c; x0d; x0e; x0f; x10;
   x11; x12; x13; x14; x15; x16; x17; x18; x19; x1a; x1b; x1c; x1d; x1e; x1f; x20].

(** * Proofs *)

(** ** Positional numbers *)
Module DigitsFacts.
Import Digits.

Lemma value_be_snoc (b : N) (l : list N) (x : N) :
  value_be b (l ++ [x]) = (value_be b l * b + x)%N.
Proof. unfold value_be. rewrite fold_left_app. reflexivity. Qed.

Lemma value_be_rev (b : N) (l : list N) :
  value_be b l = value_le b (rev l).
Proof.
  induction l as [|x l IH] using rev_ind; [reflexivity|].
  rewrite value_be_snoc, rev_app_distr, IH. simpl. lia.
Qed.

Lemma value_be_zeros (b : N) (k : nat) (l : list N) :
  value_be b (repeat 0%N k ++ l) = value_be b l.
Proof.
  unfold value_be. rewrite fold_left_app. f_equal.
  induction k as [|k IH]; [reflexivity|]. simpl.
  replace (0 * b + 0)%N with 0%N by lia. exact IH.
Qed.

Lemma pos_lt_pow_size (p : positive) :
  (N.pos p < 2 ^ N.of_nat (Pos.size_nat p))%N.
Proof.
  induction p as [p IH|p IH|]; simpl Pos.size_nat.
  - rewrite Nat2N.inj_succ, N.pow_succ_r'.
    change (N.pos p~1) with (2 * N.pos p + 1)%N. lia.
  - rewrite Nat2N.inj_succ, N.pow_succ_r'.
    change (N.pos p~0) with (2 * N.pos p)%N. lia.
  - simpl. lia.
Qed.

Lemma lt_pow_size (n : N) : (n < 2 ^ N.of_nat (N.size_nat n))%N.
Proof. destruct n as [|p]; [simpl; lia | apply pos_lt_pow_size]. Qed.

Section Base.

Variable b : N.
Hypothesis b_ge_2 : (2 <= b)%N.

Lemma to_digits_le_spec (fuel : nat) (n : N) :
  (n < 2 ^ N.of_nat fuel)%N ->
  value_le b (to_digits_le b fuel n) = n /\ canonical_le b (to_digits_le b fuel n).
Proof.
  revert n. induction fuel as [|fuel IH]; intros n Hn.
  - simpl in Hn. assert (n = 0%N) by lia. subst.
    split; [reflexivity | split; [constructor | left; reflexivity]].
  - destruct n as [|p].
    + split; [reflexivity | split; [constructor | left; reflexivity]].
    + set (n := N.pos p) in *.
      assert (Hdiv : (n / b < 2 ^ N.of_nat fuel)%N).
      { rewrite Nat2N.inj_succ, N.pow_succ_r' in Hn.
        apply N.Div0.div_lt_upper_bound. nia. }
      destruct (IH _ Hdiv) as [Hv [Hall Hlast]].
      cbn [to_digits_le]. change (match n with N0 => [] | _ => _ end)
        with ((n mod b)%N :: to_digits_le b fuel (n / b)).
      split.
      * cbn [value_le]. rewrite Hv.
        pose proof (N.Div0.div_mod n b). lia.
      * split.
        -- constructor; [apply N.mod_lt; lia | exact Hall].
        -- right. destruct (to_digits_le b fuel (n / b)) as [|d ds] eqn:E.
           ++ simpl in Hv |- *. intro Hm.
              pose proof (N.Div0.div_mod n b). unfold n in *. lia.
           ++ destruct Hlast as [Hnil|Hlast]; [discriminate|].
              change (last ((n mod b)%N :: d :: ds) 0%N) with (last (d :: ds) 0%N).
              exact Hlast.
Qed.

Lemma canonical_le_cons (d : N) (ds : list N) :
  canonical_le b (d :: ds) -> canonical_le b ds.
Proof.
  intros [Hall Hlast]. inversion Hall; subst. split; [assumption|].
  destruct ds as [|d' ds]; [left; reflexivity|].
  right. destruct Hlast as [H|H]; [discriminate|exact H].
Qed.

Lemma canonical_le_pos (ds : list N) :
  canonical_le b ds -> ds <> [] -> (0 < value_le b ds)%N.
Proof.
  induction ds as [|d ds IH]; intros Hc Hne; [congruence|].
  simpl. destruct ds as [|d' ds'].
  - destruct Hc as [_ [H|H]]; [discriminate|]. simpl in H. lia.
  - assert (0 < value_le b (d' :: ds'))%N
      by (apply IH; [eapply canonical_le_cons; eauto | discriminate]).
    nia.
Qed.

Lemma size_nat_mono (n m : N) : (n <= m)%N -> (N.size_nat n <= N.size_nat m)%nat.
Proof.
  intros H. destruct n as [|p]; [simpl; lia|]. destruct m as [|q]; [lia|].
  simpl. destruct (Pos.lt_total p q) as [Hlt|[->|Hgt]].
  - apply Pos.size_nat_monotone. exact Hlt.
  - lia.
  - lia.
Qed.

Lemma length_le_size (ds : list N) :
  canonical_le b ds -> (length ds <= N.size_nat (value_le b ds))%nat.
Proof.
  induction ds as [|d ds IH]; intros Hc; [simpl; lia|].
  simpl length. destruct ds as [|d' ds'].
  - destruct Hc as [_ [H|H]]; [discriminate|]. simpl in H |- *.
    destruct (d + b * 0)%N as [|p] eqn:E; [lia|]. destruct p; simpl; lia.
  - pose proof (canonical_le_cons _ _ Hc) as Hc'.
    specialize (IH Hc').
    pose proof (canonical_le_pos _ Hc' ltac:(discriminate)) as Hpos.
    change (value_le b (d :: d' :: ds')) with (d + b * value_le b (d' :: ds'))%N.
    set (v := value_le b (d' :: ds')) in *. clearbody v.
    assert (Hle : (2 * v <= d + b * v)%N) by nia.
    apply size_nat_mono in Hle.
    destruct v as [|p]; [lia|].
    change (2 * N.pos p)%N with (N.pos p~0) in Hle.
    cbn [N.size_nat Pos.size_nat] in Hle, IH. lia.
Qed.

Lemma to_digits_le_canonical (ds : list N) (fuel : nat) :
  canonical_le b ds -> (length ds <= fuel)%nat ->
  to_digits_le b fuel (value_le b ds) = ds.
Proof.
  revert fuel. induction ds as [|d ds IH]; intros fuel Hc Hlen.
  - destruct fuel; reflexivity.
  - destruct fuel as [|fuel]; [simpl in Hlen; lia|].
    pose proof (canonical_le_pos _ Hc ltac:(discriminate)) as Hpos.
    pose proof Hc as [Hall _]. inversion Hall as [|? ? Hd Hall']; subst.
    cbn [to_digits_le].
    destruct (value_le b (d :: ds)) as [|p] eqn:E; [lia|].
    rewrite <- E. simpl value_le.
    assert (Hmod : ((d + b * value_le b ds) mod b = d)%N).
    { rewrite N.mul_comm, N.Div0.mod_add. apply N.mod_small. exact Hd. }
    assert (Hq : ((d + b * value_le b ds) / b = value_le b ds)%N).
    { rewrite N.mul_comm, N.div_add by lia.
      rewrite N.div_small by exact Hd. lia. }
    rewrite Hmod, Hq, IH; [reflexivity | eapply canonical_le_cons; eauto | simpl in Hlen; lia].
Qed.

(** the digits of [n] spell [n] in big-endian order *)
Lemma to_digits_value (n : N) : value_be b (to_digits b n) = n.
Proof.
  unfold to_digits. rewrite value_be_rev, rev_involutive.
  apply to_digits_le_spec. apply lt_pow_size.
Qed.

Lemma to_digits_canonical (n : N) :
  Forall (fun d => (d < b)%N) (to_digits b n) /\
  (to_digits b n = [] \/ exists d ds, to_digits b n = d :: ds /\ d <> 0%N).
Proof.
  destruct (to_digits_le_spec (N.size_nat n) n (lt_pow_size n)) as [_ [Hall Hlast]].
  unfold to_digits. split.
  - apply Forall_rev. exact Hall.
  - destruct Hlast as [->|Hlast]; [left; reflexivity|right].
    destruct (to_digits_le b (N.size_nat n) n) as [|x xs] eqn:E;
      [simpl in Hlast; lia|].
    destruct (exists_last (l := x :: xs) ltac:(discriminate)) as [ds [d Hds]].
    rewrite Hds in Hlast |- *. rewrite rev_app_distr. simpl.
    exists d, (rev ds). split; [reflexivity|].
    rewrite last_last in Hlast. exact Hlast.
Qed.

(** a digit string with no leading zero is the digit string of its value *)
Lemma to_digits_of_canonical (l : list N) :
  Forall (fun d => (d < b)%N) l ->
  (l = [] \/ exists d ds, l = d :: ds /\ d <> 0%N) ->
  to_digits b (value_be b l) = l.
Proof.
  intros Hall Hhead.
  assert (Hc : canonical_le b (rev l)).
  { split; [apply Forall_rev; exact Hall|].
    destruct Hhead as [->|[d [ds [-> Hd]]]]; [left; reflexivity|right].
    simpl. rewrite last_last. exact Hd. }
  unfold to_digits. rewrite value_be_rev.
  rewrite to_digits_le_canonical; [apply rev_involutive | exact Hc |].
  apply length_le_size. exact Hc.
Qed.

End Base.

End DigitsFacts.

(** ** base58btc *)
Module Base58Facts.
Import Multibase.

Lemma index_of_lt (c : ascii) (l : list ascii) (d : N) :
  index_of c l = Some d -> (d < N.of_nat (length l))%N.
Proof.
  revert d. induction l as [|c' l IH]; intros d H; [discriminate|].
  simpl in H. destruct (Ascii.eqb c' c).
  - injection H as <-. simpl. lia.
  - destruct (index_of c l) as [d'|] eqn:E; [|discriminate].
    injection H as <-. specialize (IH d' eq_refl). simpl length. lia.
Qed.

Lemma b58_lookup_lt (c : ascii) (d : N) : b58_lookup c = Some d -> (d < 58)%N.
Proof. intros H. apply index_of_lt in H. exact H. Qed.

Lemma b58_lookup_char (d : N) : (d < 58)%N -> b58_lookup (b58_char d) = Some d.
Proof.
  intros Hd. rewrite <- (N2Nat.id d). unfold b58_char. rewrite Nat2N.id.
  assert (Hn : (N.to_nat d < 58)%nat) by lia.
  generalize (N.to_nat d) Hn. clear. intros n Hn.
  do 58 (destruct n as [|n]; [reflexivity|]). lia.
Qed.

Lemma b58_char_0 : b58_char 0 = "1"%char.
Proof. reflexivity. Qed.

Lemma b58_char_not_1 (d : N) : (d < 58)%N -> d <> 0%N -> b58_char d <> "1"%char.
Proof.
  intros Hd Hnz Heq. pose proof (b58_lookup_char d Hd) as H.
  rewrite Heq in H. compute in H. injection H as H. lia.
Qed.

Lemma b58_digits_map (ds : list N) :
  Forall (fun d => (d < 58)%N) ds -> b58_digits (map b58_char ds) = Some ds.
Proof.
  induction 1 as [|d ds Hd _ IH]; [reflexivity|].
  simpl. rewrite b58_lookup_char by exact Hd. rewrite IH. reflexivity.
Qed.

Section CountLeading.

Context {A : Type} (eqb : A -> A -> bool).
Hypothesis eqb_spec : forall x y, eqb x y = true <-> x = y.

Lemma count_leading_repeat_app (z : A) (k : nat) (l : list A) :
  count_leading eqb z (repeat z k ++ l) = (k + count_leading eqb z l)%nat.
Proof.
  induction k as [|k IH]; [reflexivity|]. simpl.
  assert (eqb z z = true) as -> by (apply eqb_spec; reflexivity).
  rewrite IH. reflexivity.
Qed.

Lemma count_leading_split (z : A) (l : list A) :
  l = repeat z (count_leading eqb z l) ++ skipn (count_leading eqb z l) l /\
  (skipn (count_leading eqb z l) l = [] \/
   exists x r, skipn (count_leading eqb z l) l = x :: r /\ x <> z).
Proof.
  induction l as [|x l [IHeq IHrest]]; [split; [reflexivity | left; reflexivity]|].
  simpl. destruct (eqb x z) eqn:E.
  - apply eqb_spec in E. subst x. simpl. split; [f_equal; exact IHeq | exact IHrest].
  - simpl. split; [reflexivity|]. right. exists x, l. split; [reflexivity|].
    intros Hxz. apply eqb_spec in Hxz. congruence.
Qed.

End CountLeading.

Lemma byte_of_N_to_N (x : byte) : byte_of_N (Byte.to_N x) = x.
Proof. destruct x; reflexivity. Qed.

Lemma to_N_zero (x : byte) : Byte.to_N x = 0%N -> x = x00.
Proof.
  intros H. pose proof (Byte.of_to_N x) as Hx. rewrite H in Hx.
  compute in Hx. congruence.
Qed.

Lemma to_N_lt_256 (x : byte) : (Byte.to_N x < 256)%N.
Proof. pose proof (Byte.to_N_bounded x). lia. Qed.

Lemma byte_eqb_spec (x y : byte) : Byte.eqb x y = true <-> x = y.
Proof. split; [apply Byte.byte_dec_bl | apply Byte.byte_dec_lb]. Qed.

Lemma ascii_eqb_spec (x y : ascii) : Ascii.eqb x y = true <-> x = y.
Proof. apply Ascii.eqb_eq. Qed.

(** decoding an encoded byte string gives it back, whatever its length *)
Lemma base58btc_decode_encode (l : list byte) :
  base58btc_decode (base58btc_encode l) = Ok l.
Proof.
  destruct (count_leading_split Byte.eqb byte_eqb_spec x00 l) as [Hl Hrest].
  set (k := count_leading Byte.eqb x00 l) in *.
  set (rest := skipn k l) in *. clearbody rest.
  assert (Hv : Digits.value_be 256 (map Byte.to_N l)
               = Digits.value_be 256 (map Byte.to_N rest)).
  { rewrite Hl at 1. rewrite map_app, map_repeat. apply DigitsFacts.value_be_zeros. }
  unfold base58btc_encode, base58btc_decode. fold k.
  rewrite list_ascii_of_string_of_list_ascii, Hv.
  set (v := Digits.value_be 256 (map Byte.to_N rest)).
  destruct (DigitsFacts.to_digits_canonical 58 ltac:(lia) v) as [Hall Hhead].
  set (D := Digits.to_digits 58 v) in *.
  assert (Hcs : repeat "1"%char k ++ map b58_char D = map b58_char (repeat 0%N k ++ D)).
  { rewrite map_app, map_repeat. reflexivity. }
  rewrite Hcs, b58_digits_map.
  2:{ apply Forall_app. split; [apply Forall_forall; intros x Hx;
        apply repeat_spec in Hx; rewrite Hx; lia | exact Hall]. }
  rewrite <- Hcs, (count_leading_repeat_app Ascii.eqb ascii_eqb_spec).
  assert (Hc0 : count_leading Ascii.eqb "1"%char (map b58_char D) = O).
  { destruct Hhead as [->|[d [ds [-> Hd]]]]; [reflexivity|].
    apply Forall_inv in Hall as Hd58. simpl.
    destruct (Ascii.eqb (b58_char d) "1") eqn:E; [|reflexivity].
    apply Ascii.eqb_eq in E. exfalso. exact (b58_char_not_1 d Hd58 Hd E). }
  rewrite Hc0, Nat.add_0_r, DigitsFacts.value_be_zeros.
  unfold D. rewrite (DigitsFacts.to_digits_value 58 ltac:(lia)). unfold v.
  rewrite (DigitsFacts.to_digits_of_canonical 256 ltac:(lia)).
  - rewrite map_map. rewrite (map_ext _ (fun x => x) byte_of_N_to_N), map_id.
    f_equal. symmetry. exact Hl.
  - apply Forall_forall. intros x Hx. apply in_map_iff in Hx.
    destruct Hx as [y [<- _]]. apply to_N_lt_256.
  - destruct Hrest as [->|[x [r [-> Hx]]]]; [left; reflexivity|right].
    exists (Byte.to_N x), (map Byte.to_N r). split; [reflexivity|].
    intros H0. apply Hx, to_N_zero, H0.
Qed.

End Base58Facts.

(** ** Did::to_public_key, step by step *)
Module DidFacts.
Import DidImpl.

Lemma prefix_app_gen (p s : string) : String.prefix p (p ++ s) = true.
Proof.
  induction p as [|a p IH]; [destruct s; reflexivity|].
  simpl. destruct (ascii_dec a a) as [_|n]; [exact IH | contradiction n; reflexivity].
Qed.

Lemma prefix_app (s : string) :
  String.prefix DID_DVERSE_PREFIX (DID_DVERSE_PREFIX ++ s) = true.
Proof. apply prefix_app_gen. Qed.

Lemma drop_prefix (s : string) :
  str_drop (String.length DID_DVERSE_PREFIX) (DID_DVERSE_PREFIX ++ s) = s.
Proof. reflexivity. Qed.

Lemma from_code_code (c : string) (b : Multibase.Base) :
  Multibase.from_code c = Some b -> Multibase.code b = c.
Proof.
  intros H. apply find_some in H as [_ H]. apply String.eqb_eq in H. exact H.
Qed.

(** a first character that is ["z"] is the single byte ['z'] *)
Lemma first_char_z (s t : string) :
  Multibase.first_char s = Some ("z"%string, t) -> s = String "z" t.
Proof.
  destruct s as [|lead s']; [discriminate|]. cbn [Multibase.first_char].
  intros H. injection H as H1 H2.
  destruct (Multibase.utf8_len lead) as [|k] eqn:Ek.
  - unfold Multibase.utf8_len in Ek.
    repeat match type of Ek with context [if ?b then _ else _] => destruct b end;
      discriminate.
  - cbn [str_take] in H1. injection H1 as -> Hk.
    assert (k = 0) as -> by (vm_compute in Ek; injection Ek as Ek; exact (eq_sym Ek)).
    cbn [str_drop] in H2. rewrite H2. reflexivity.
Qed.

(** after the prefix, [to_public_key] is the multibase decoding of the
    rest followed by the base and multicodec checks *)
Lemma to_public_key_prefixed decode_other (s : string) :
  to_public_key decode_other (mkDid (DID_DVERSE_PREFIX ++ s)) =
  match Multibase.decode decode_other s with
  | Err e => Throw (MultibaseError e)
  | Ok (base, decoded_bytes) =>
      if Multibase.base_eq_dec base Multibase.Base58Btc then
        if Nat.ltb (length decoded_bytes) 2 then Panic
        else if list_byte_eqb (firstn 2 decoded_bytes) MULTICODEC_ED25519_PUB
             then Ret (mkPublicKey (skipn 2 decoded_bytes))
             else Throw (UnsupportedMulticodec (firstn 2 decoded_bytes))
      else Throw (UnsupportedMultibase base)
  end.
Proof.
  unfold to_public_key. cbn [did_0]. rewrite prefix_app, drop_prefix. cbn [negb].
  destruct (Multibase.decode decode_other s) as [[base bytes]|e]; [|reflexivity].
  cbn [lift bind]. destruct (Multibase.base_eq_dec base Multibase.Base58Btc); [|reflexivity].
  cbn [negb]. unfold slice, slice_from. simpl length.
  destruct (Nat.ltb (length bytes) 2) eqn:Hlt; cbn [bind].
  - apply Nat.ltb_lt in Hlt. destruct (Nat.leb 2 (length bytes)) eqn:Hle;
      [apply Nat.leb_le in Hle; lia | reflexivity].
  - apply Nat.ltb_ge in Hlt. assert (Nat.leb 2 (length bytes) = true) as ->
      by (apply Nat.leb_le; exact Hlt).
    cbn. destruct (list_byte_eqb _ MULTICODEC_ED25519_PUB); reflexivity.
Qed.

Lemma decode_z decode_other (s : string) :
  Multibase.decode decode_other (String "z" s) =
  match Multibase.base58btc_decode s with
  | Ok decoded => Ok (Multibase.Base58Btc, decoded)
  | Err e => Err e
  end.
Proof. reflexivity. Qed.

(** the DID string of a base58btc payload *)
Lemma to_public_key_base58btc decode_other (s : string) (bytes : list byte) :
  Multibase.base58btc_decode s = Ok bytes ->
  to_public_key decode_other (mkDid (DID_DVERSE_PREFIX ++ String "z" s)) =
  if Nat.ltb (length bytes) 2 then Panic
  else if list_byte_eqb (firstn 2 bytes) MULTICODEC_ED25519_PUB
       then Ret (mkPublicKey (skipn 2 bytes))
       else Throw (UnsupportedMulticodec (firstn 2 bytes)).
Proof.
  intros H. rewrite to_public_key_prefixed, decode_z, H. reflexivity.
Qed.

Lemma to_public_key_tagged decode_other (s : string) (rest : list byte) :
  Multibase.base58btc_decode s = Ok (xed :: x01 :: rest) ->
  to_public_key decode_other (mkDid (DID_DVERSE_PREFIX ++ String "z" s)) =
  Ret (mkPublicKey rest).
Proof. intros H. rewrite (to_public_key_base58btc _ _ _ H). reflexivity. Qed.

(** [from_public_key] always returns the prefixed base58btc text *)
Lemma from_public_key_eq (pk : PublicKey) :
  from_public_key pk =
  Ret (mkDid (DID_DVERSE_PREFIX ++ String "z"
          (Multibase.base58btc_encode (MULTICODEC_ED25519_PUB ++ public_key_0 pk)))).
Proof. reflexivity. Qed.

Lemma roundtrip decode_other (B : list byte) :
  exists d, from_public_key (mkPublicKey B) = Ret d /\
            to_public_key decode_other d = Ret (mkPublicKey B).
Proof.
  eexists. split; [apply from_public_key_eq|].
  apply to_public_key_tagged. apply Base58Facts.base58btc_decode_encode.
Qed.

End DidFacts.

(** ** Fixed-size arrays *)
Module ArrayFacts.

Lemma try_into_array_wrong_length (n : nat) (l : list byte) :
  length l <> n -> try_into_array n l = None.
Proof.
  intros H. unfold try_into_array.
  destruct (Nat.eq_dec (length l) n); [contradiction | reflexivity].
Qed.

Lemma try_into_array_proj (n : nat) (a : array n) :
  try_into_array n (proj1_sig a) = Some a.
Proof.
  destruct a as [l H]. unfold try_into_array. simpl.
  destruct (Nat.eq_dec (length l) n) as [H'|H']; [|contradiction].
  rewrite (Eqdep_dec.UIP_dec Nat.eq_dec H' H). reflexivity.
Qed.

Lemma try_into_array_right_length (n : nat) (l : list byte) :
  length l = n -> exists a : array n, proj1_sig a = l /\ try_into_array n l = Some a.
Proof.
  intros H. exists (exist _ l H). split; [reflexivity|].
  apply (try_into_array_proj n (exist _ l H)).
Qed.

End ArrayFacts.

(** * The claims *)
Module Claims.
Import DidImpl.

(** C1: for every 32-byte public key P, decoding the DID produced from it
    succeeds and returns a public key byte-wise equal to P. *)
Theorem C1_roundtrip_32
  (decode_other : Multibase.Base -> string -> result (list byte) Multibase.Error)
  (P : list byte) (H : length P = 32) :
  exists d, from_public_key (mkPublicKey P) = Ret d /\
            to_public_key decode_other d = Ret (mkPublicKey P).
Proof. apply DidFacts.roundtrip. Qed.

Lemma C1_roundtrip_32_witness :
  length bytes32 = 32 /\
  exists d, from_public_key (mkPublicKey bytes32) = Ret d /\
            to_public_key no_other_decoders d = Ret (mkPublicKey bytes32).
Proof.
  split; [reflexivity|].
  apply (C1_roundtrip_32 no_other_decoders bytes32). reflexivity.
Defined.

(** C2 (code defect): on ["did:dverse:z"], whose base58btc payload is
    empty, [to_public_key] panics: the error branch for short payloads
    formats [&decoded_bytes[0..2]], which is out of range. *)
Theorem C2_short_payload_panics
  (decode_other : Multibase.Base -> string -> result (list byte) Multibase.Error) :
  to_public_key decode_other (mkDid "did:dverse:z") = Panic.
Proof. reflexivity. Qed.

(** more generally, every base58btc payload shorter than the two-byte
    tag makes [to_public_key] panic *)
Lemma short_payload_panics
  (decode_other : Multibase.Base -> string -> result (list byte) Multibase.Error)
  (s : string) (bytes : list byte)
  (H : Multibase.base58btc_decode s = Ok bytes) (Hlen : length bytes < 2) :
  to_public_key decode_other (mkDid (DID_DVERSE_PREFIX ++ String "z" s)) = Panic.
Proof.
  rewrite (DidFacts.to_public_key_base58btc _ _ _ H).
  assert (Nat.ltb (length bytes) 2 = true) as -> by (apply Nat.ltb_lt; exact Hlen).
  reflexivity.
Qed.

(** C3, refuted: with the indicator ['x'], which names no multibase
    alphabet, the error is the multibase crate's [UnknownBase], not
    [UnsupportedMultibase]. *)
Lemma C3_unknown_indicator :
  to_public_key no_other_decoders (mkDid "did:dverse:xABC")
  = Throw (MultibaseError (Multibase.UnknownBase "x")).
Proof. reflexivity. Qed.

(** C3, as amended: after the prefix, a first character [c] other than
    ['z'] (followed by the text [rest]) fails with
    [MultibaseError (UnknownBase c)] when it names no multibase
    alphabet; when it names another alphabet (among them Base45 ['R'] and
    Base256Emoji, U+1F680) the rest is decoded with it, and the call
    fails with [UnsupportedMultibase] if that decoding succeeds and with
    [MultibaseError] if it fails. *)
Theorem C3_other_indicator
  (decode_other : Multibase.Base -> string -> result (list byte) Multibase.Error)
  (s c rest : string) (Hs : Multibase.first_char s = Some (c, rest))
  (Hc : c <> "z"%string) :
  to_public_key decode_other (mkDid (DID_DVERSE_PREFIX ++ s)) =
  match Multibase.from_code c with
  | None => Throw (MultibaseError (Multibase.UnknownBase c))
  | Some base =>
      match decode_other base rest with
      | Ok _ => Throw (UnsupportedMultibase base)
      | Err e => Throw (MultibaseError e)
      end
  end.
Proof.
  rewrite DidFacts.to_public_key_prefixed. unfold Multibase.decode. rewrite Hs.
  destruct (Multibase.from_code c) as [base|] eqn:E; [|reflexivity].
  apply DidFacts.from_code_code in E.
  assert (Hb : base <> Multibase.Base58Btc) by (intros ->; apply Hc; symmetry; exact E).
  assert (Hd : Multibase.base_decode decode_other base rest = decode_other base rest)
    by (destruct base; try reflexivity; contradiction).
  rewrite Hd. destruct (decode_other base rest) as [bytes|e]; [|reflexivity].
  destruct (Multibase.base_eq_dec base Multibase.Base58Btc); [contradiction | reflexivity].
Qed.

Lemma C3_other_indicator_witness :
  Multibase.first_char "RABC" = Some ("R"%string, "ABC"%string) /\
  "R"%string <> "z"%string /\
  to_public_key (fun _ _ => Ok []) (mkDid (DID_DVERSE_PREFIX ++ "RABC")) =
  Throw (UnsupportedMultibase Multibase.Base45).
Proof.
  split; [reflexivity|]. split; [discriminate|].
  rewrite (C3_other_indicator (fun _ _ => Ok []) "RABC" "R" "ABC" eq_refl
             ltac:(discriminate)).
  reflexivity.
Defined.

End Claims.

(** ** Byte-list equality *)
Module ListByteFacts.

Lemma list_byte_eqb_true (l1 l2 : list byte) : list_byte_eqb l1 l2 = true -> l1 = l2.
Proof.
  revert l2. induction l1 as [|b1 l1 IH]; intros [|b2 l2] H; try discriminate; [reflexivity|].
  simpl in H. apply andb_true_iff in H as [Hb Hl].
  apply Byte.byte_dec_bl in Hb. f_equal; [exact Hb | apply IH, Hl].
Qed.

End ListByteFacts.

(** * The claims, continued *)
Module Claims2.
Import DidImpl.

(** C4: when the base58btc payload after the prefix is 0xED 0x01
    followed by any [rest] (of any length, 32 or not), [to_public_key]
    returns [rest]; the length of [rest] is not checked. *)
Theorem C4_no_length_check
  (decode_other : Multibase.Base -> string -> result (list byte) Multibase.Error)
  (s : string) (rest : list byte)
  (H : Multibase.base58btc_decode s = Ok (xed :: x01 :: rest)) :
  to_public_key decode_other (mkDid (DID_DVERSE_PREFIX ++ String "z" s)) =
  Ret (mkPublicKey rest).
Proof. apply DidFacts.to_public_key_tagged. exact H. Qed.

Lemma C4_no_length_check_witness :
  Multibase.base58btc_decode
    (Multibase.base58btc_encode [xed; x01; x07; x08; x09])
    = Ok [xed; x01; x07; x08; x09] /\
  to_public_key no_other_decoders
    (mkDid (DID_DVERSE_PREFIX ++ String "z"
              (Multibase.base58btc_encode [xed; x01; x07; x08; x09])))
  = Ret (mkPublicKey [x07; x08; x09]).
Proof.
  split; [vm_compute; reflexivity|].
  apply C4_no_length_check. vm_compute. reflexivity.
Defined.

(** C5: a string without the exact prefix ["did:dverse:"] fails with
    [InvalidDidFormat], whatever the multibase decoders are: the check
    comes before any decoding. *)
Theorem C5_prefix_checked_first
  (decode_other : Multibase.Base -> string -> result (list byte) Multibase.Error)
  (s : string) (H : String.prefix DID_DVERSE_PREFIX s = false) :
  to_public_key decode_other (mkDid s) = Throw (InvalidDidFormat s).
Proof. unfold to_public_key. cbn [did_0]. rewrite H. reflexivity. Qed.

Lemma C5_prefix_checked_first_witness :
  String.prefix DID_DVERSE_PREFIX "did:key:zABC" = false /\
  to_public_key no_other_decoders (mkDid "did:key:zABC")
  = Throw (InvalidDidFormat "did:key:zABC").
Proof.
  split; [reflexivity|]. apply C5_prefix_checked_first. reflexivity.
Defined.

(** C6: a base58btc payload of at least two bytes whose first two bytes
    are not 0xED 0x01 fails with [UnsupportedMulticodec]. *)
Theorem C6_wrong_tag
  (decode_other : Multibase.Base -> string -> result (list byte) Multibase.Error)
  (s : string) (bytes : list byte)
  (H : Multibase.base58btc_decode s = Ok bytes)
  (Hlen : 2 <= length bytes)
  (Htag : firstn 2 bytes <> MULTICODEC_ED25519_PUB) :
  to_public_key decode_other (mkDid (DID_DVERSE_PREFIX ++ String "z" s)) =
  Throw (UnsupportedMulticodec (firstn 2 bytes)).
Proof.
  rewrite (DidFacts.to_public_key_base58btc _ _ _ H).
  assert (Nat.ltb (length bytes) 2 = false) as -> by (apply Nat.ltb_ge; exact Hlen).
  destruct (list_byte_eqb (firstn 2 bytes) MULTICODEC_ED25519_PUB) eqn:E; [|reflexivity].
  apply ListByteFacts.list_byte_eqb_true in E. contradiction.
Qed.

Lemma C6_wrong_tag_witness :
  Multibase.base58btc_decode (Multibase.base58btc_encode [x12; x34; x56])
    = Ok [x12; x34; x56] /\
  2 <= length [x12; x34; x56] /\
  firstn 2 [x12; x34; x56] <> MULTICODEC_ED25519_PUB /\
  to_public_key no_other_decoders
    (mkDid (DID_DVERSE_PREFIX ++ String "z" (Multibase.base58btc_encode [x12; x34; x56])))
  = Throw (UnsupportedMulticodec [x12; x34]).
Proof.
  split; [vm_compute; reflexivity|]. split; [simpl; lia|].
  split; [discriminate|].
  apply (C6_wrong_tag no_other_decoders _ [x12; x34; x56]);
    [vm_compute; reflexivity | simpl; lia | discriminate].
Defined.

End Claims2.

(** * The claims on key pairs and on [from_public_key] *)
Module Claims3.
Import DidImpl KeyPairImpl.

(** C7: when the held public key is a 32-byte key that the primitive
    accepts, [verify] with a signature not of 64 bytes fails with the
    signature-length [ArrayConversionError]; this holds for every
    primitive, so its verification is never consulted. *)
Theorem C7_signature_length
  `{D : Ed25519} (kp : KeyPair) (message signature : list byte)
  (pk : array 32) (vk : VerifyingKey)
  (Hpk : public_key_0 (public_key kp) = proj1_sig pk)
  (Hvk : verifying_key_from_bytes pk = Ok vk)
  (Hsig : length signature <> 64) :
  verify kp message signature =
  Throw (ArrayConversionError "Signature bytes are not 64 bytes long").
Proof.
  unfold verify. rewrite Hpk, ArrayFacts.try_into_array_proj, Hvk. cbn [lift bind].
  rewrite (ArrayFacts.try_into_array_wrong_length 64 signature Hsig). reflexivity.
Qed.

Lemma C7_signature_length_witness :
  public_key_0 (public_key (mkKeyPair (mkPrivateKey bytes32) (mkPublicKey bytes32)))
    = proj1_sig (exist (fun l => length l = 32) bytes32 eq_refl) /\
  @verifying_key_from_bytes toy_ed25519 (exist _ bytes32 eq_refl)
    = Ok (exist _ bytes32 eq_refl) /\
  length [x01; x02; x03] <> 64 /\
  verify (mkKeyPair (mkPrivateKey bytes32) (mkPublicKey bytes32)) [x00] [x01; x02; x03]
  = Throw (ArrayConversionError "Signature bytes are not 64 bytes long").
Proof.
  split; [reflexivity|]. split; [reflexivity|]. split; [simpl; lia|].
  apply (@C7_signature_length toy_ed25519 _ [x00] [x01; x02; x03]
           (exist _ bytes32 eq_refl) (exist _ bytes32 eq_refl));
    [reflexivity | reflexivity | simpl; lia].
Defined.

(** C8: [sign] fails with the private-key-length [ArrayConversionError]
    exactly when the private key is not 32 bytes long, and on a 32-byte
    private key it returns a 64-byte signature. *)
Theorem C8_sign_key_length
  `{D : Ed25519} (kp : KeyPair) (message : list byte) :
  (sign kp message =
     Throw (ArrayConversionError "Private key bytes are not 32 bytes long")
   <-> length (private_key_0 (private_key kp)) <> 32) /\
  (length (private_key_0 (private_key kp)) = 32 <->
   exists sig, sign kp message = Ret sig /\ length sig = 64).
Proof.
  unfold sign. split; split.
  - intros H Hlen.
    destruct (ArrayFacts.try_into_array_right_length 32 _ Hlen) as [a [_ Ha]].
    rewrite Ha in H. discriminate.
  - intros Hlen. rewrite (ArrayFacts.try_into_array_wrong_length 32 _ Hlen). reflexivity.
  - intros Hlen.
    destruct (ArrayFacts.try_into_array_right_length 32 _ Hlen) as [a [_ Ha]].
    rewrite Ha. eexists. split; [reflexivity|].
    exact (proj2_sig (signature_to_bytes (signing_key_sign (signing_key_from_bytes a) message))).
  - intros [sig [H _]].
    destruct (Nat.eq_dec (length (private_key_0 (private_key kp))) 32) as [E|E]; [exact E|].
    rewrite (ArrayFacts.try_into_array_wrong_length 32 _ E) in H. discriminate.
Qed.

(** C9: [from_public_key] always returns a [Did] (never an error nor a
    panic), and byte-wise equal keys give equal DIDs. *)
Theorem C9_from_public_key_total
  (pk : PublicKey) :
  (exists d, from_public_key pk = Ret d) /\
  (forall pk', public_key_0 pk = public_key_0 pk' ->
               from_public_key pk = from_public_key pk').
Proof.
  split.
  - eexists. apply DidFacts.from_public_key_eq.
  - intros pk' Heq. rewrite !DidFacts.from_public_key_eq, Heq. reflexivity.
Qed.

(** C10: [from_public_key] accepts a key of any length, and decoding its
    DID gives the same bytes back. *)
Theorem C10_roundtrip_any_length
  (decode_other : Multibase.Base -> string -> result (list byte) Multibase.Error)
  (B : list byte) :
  exists d, from_public_key (mkPublicKey B) = Ret d /\
            to_public_key decode_other d = Ret (mkPublicKey B).
Proof. apply DidFacts.roundtrip. Qed.

End Claims3.

(** * Further properties of the code *)

(** ** base58btc text is canonical: every valid text is the encoding of
    what it decodes to *)
Module CanonicalFacts.
Import Multibase.

Lemma index_of_nth (c : ascii) (l : list ascii) (d : N) :
  index_of c l = Some d -> nth (N.to_nat d) l "1"%char = c.
Proof.
  revert d. induction l as [|c' l IH]; intros d H; [discriminate|].
  simpl in H. destruct (Ascii.eqb c' c) eqn:E.
  - injection H as <-. apply Ascii.eqb_eq in E. exact E.
  - destruct (index_of c l) as [d'|] eqn:E'; [|discriminate].
    injection H as <-. rewrite N2Nat.inj_succ. simpl. apply IH. reflexivity.
Qed.

Lemma b58_digits_spec (cs : list ascii) (ds : list N) :
  b58_digits cs = Some ds -> map b58_char ds = cs /\ Forall (fun d => (d < 58)%N) ds.
Proof.
  revert ds. induction cs as [|c cs IH]; intros ds H.
  - injection H as <-. split; [reflexivity | constructor].
  - simpl in H. destruct (b58_lookup c) as [d|] eqn:Ec; [|discriminate].
    destruct (b58_digits cs) as [ds'|]; [|discriminate].
    injection H as <-. destruct (IH ds' eq_refl) as [Hm Hf].
    split.
    + simpl. rewrite Hm. f_equal. apply index_of_nth. exact Ec.
    + constructor; [eapply Base58Facts.b58_lookup_lt; eauto | exact Hf].
Qed.

Lemma b58_digits_app (l1 l2 : list ascii) (ds : list N) :
  b58_digits (l1 ++ l2) = Some ds ->
  exists ds1 ds2, ds = ds1 ++ ds2 /\ b58_digits l1 = Some ds1 /\ b58_digits l2 = Some ds2.
Proof.
  revert ds. induction l1 as [|c l1 IH]; intros ds H.
  - exists [], ds. split; [reflexivity | split; [reflexivity | exact H]].
  - simpl in H. destruct (b58_lookup c) as [d|] eqn:Ec; [|discriminate].
    destruct (b58_digits (l1 ++ l2)) as [ds'|] eqn:E; [|discriminate].
    injection H as <-. destruct (IH ds' eq_refl) as [ds1 [ds2 [-> [H1 H2]]]].
    exists (d :: ds1), ds2. split; [reflexivity|]. split; [|exact H2].
    simpl. rewrite Ec, H1. reflexivity.
Qed.

Lemma b58_digits_ones (k : nat) : b58_digits (repeat "1"%char k) = Some (repeat 0%N k).
Proof. induction k as [|k IH]; [reflexivity|]. simpl. rewrite IH. reflexivity. Qed.

Lemma to_N_byte_of_N (d : N) : (d < 256)%N -> Byte.to_N (byte_of_N d) = d.
Proof.
  intros Hd. unfold byte_of_N.
  assert (Hl : N.land d 255 = d).
  { change 255%N with (N.ones 8). rewrite N.land_ones. apply N.mod_small. exact Hd. }
  rewrite Hl. destruct (Byte.of_N d) as [b|] eqn:E.
  - apply Byte.to_of_N in E. exact E.
  - apply Byte.of_N_None_iff in E. lia.
Qed.

Lemma count_leading_split_ascii (cs : list ascii) :
  cs = repeat "1"%char (count_leading Ascii.eqb "1"%char cs)
       ++ skipn (count_leading Ascii.eqb "1"%char cs) cs /\
  (skipn (count_leading Ascii.eqb "1"%char cs) cs = [] \/
   exists x r, skipn (count_leading Ascii.eqb "1"%char cs) cs = x :: r /\ x <> "1"%char).
Proof. apply Base58Facts.count_leading_split. exact Base58Facts.ascii_eqb_spec. Qed.

(** encoding what a valid text decodes to gives the text back *)
Lemma base58btc_encode_decode (s : string) (bytes : list byte) :
  base58btc_decode s = Ok bytes -> base58btc_encode bytes = s.
Proof.
  unfold base58btc_decode. set (cs := list_ascii_of_string s).
  destruct (count_leading_split_ascii cs) as [Hcs Hrest].
  destruct (b58_digits cs) as [ds|] eqn:Eds; [|discriminate].
  intros H. injection H as <-.
  set (k := count_leading Ascii.eqb "1"%char cs) in *.
  set (rest := skipn k cs) in *. clearbody rest.
  rewrite Hcs in Eds. apply b58_digits_app in Eds as [ds1 [ds2 [-> [H1 H2]]]].
  rewrite b58_digits_ones in H1. injection H1 as <-.
  destruct (b58_digits_spec _ _ H2) as [Hmap Hall].
  rewrite DigitsFacts.value_be_zeros.
  assert (Hhead : ds2 = [] \/ exists d ds, ds2 = d :: ds /\ d <> 0%N).
  { destruct ds2 as [|d ds]; [left; reflexivity|right]. exists d, ds. split; [reflexivity|].
    intros ->. destruct Hrest as [->|[x [r [Hr Hx]]]]; [discriminate|].
    rewrite Hr in Hmap. injection Hmap as Hc _. apply Hx. rewrite <- Hc. reflexivity. }
  set (v := Digits.value_be 58 ds2).
  destruct (DigitsFacts.to_digits_canonical 256 ltac:(lia) v) as [Ball Bhead].
  set (B := Digits.to_digits 256 v) in *.
  assert (HB : map Byte.to_N (map byte_of_N B) = B).
  { rewrite map_map. rewrite <- (map_id B) at 2. apply map_ext_in.
    intros d Hd. apply to_N_byte_of_N. rewrite Forall_forall in Ball. apply Ball, Hd. }
  unfold base58btc_encode.
  rewrite (Base58Facts.count_leading_repeat_app Byte.eqb Base58Facts.byte_eqb_spec).
  assert (Hc0 : count_leading Byte.eqb x00 (map byte_of_N B) = O).
  { destruct Bhead as [->|[d [ds [Hd Hnz]]]]; [reflexivity|].
    rewrite Hd. simpl. destruct (Byte.eqb (byte_of_N d) x00) eqn:E; [|reflexivity].
    apply Byte.byte_dec_bl in E. exfalso. apply Hnz.
    rewrite Hd in Ball. apply Forall_inv in Ball.
    rewrite <- (to_N_byte_of_N d Ball), E. reflexivity. }
  rewrite Hc0, Nat.add_0_r, map_app, map_repeat, HB.
  change (Byte.to_N x00) with 0%N. rewrite DigitsFacts.value_be_zeros.
  unfold B. rewrite (DigitsFacts.to_digits_value 256 ltac:(lia)). unfold v.
  rewrite (DigitsFacts.to_digits_of_canonical 58 ltac:(lia) ds2 Hall Hhead).
  rewrite Hmap, <- Hcs. apply string_of_list_ascii_of_string.
Qed.

End CanonicalFacts.

(** ** Digit counts *)
Module LengthFacts.
Import Digits.

Lemma fold_value (b acc : N) (l : list N) :
  fold_left (fun acc d => (acc * b + d)%N) l acc
  = (acc * b ^ N.of_nat (length l) + value_be b l)%N.
Proof.
  revert acc. induction l as [|d l IH]; intros acc.
  - unfold value_be. simpl. lia.
  - change (value_be b (d :: l))
      with (fold_left (fun acc d => (acc * b + d)%N) l (0 * b + d)%N).
    simpl fold_left. rewrite !IH.
    simpl length. rewrite Nat2N.inj_succ, N.pow_succ_r'. lia.
Qed.

Lemma value_be_cons (b d : N) (l : list N) :
  value_be b (d :: l) = (d * b ^ N.of_nat (length l) + value_be b l)%N.
Proof.
  unfold value_be at 1. simpl fold_left. rewrite fold_value. nia.
Qed.

Lemma value_be_lt (b : N) (ds : list N) :
  Forall (fun d => (d < b)%N) ds -> (value_be b ds < b ^ N.of_nat (length ds))%N.
Proof.
  induction 1 as [|d ds Hd _ IH]; [simpl; unfold value_be; simpl; lia|].
  rewrite value_be_cons. simpl length. rewrite Nat2N.inj_succ, N.pow_succ_r'. nia.
Qed.

Lemma value_be_ge (b d : N) (ds : list N) :
  d <> 0%N -> (b ^ N.of_nat (length ds) <= value_be b (d :: ds))%N.
Proof. intros Hd. rewrite value_be_cons. nia. Qed.

(** a number between [b^(k-1)] and [b^k] has [k] digits *)
Lemma to_digits_length (b v : N) (k : nat) :
  (2 <= b)%N -> (b ^ N.of_nat k <= v)%N -> (v < b ^ N.of_nat (S k))%N ->
  length (to_digits b v) = S k.
Proof.
  intros Hb Hlo Hhi.
  destruct (DigitsFacts.to_digits_canonical b Hb v) as [Hall Hhead].
  pose proof (DigitsFacts.to_digits_value b Hb v) as Hv.
  pose proof (value_be_lt b _ Hall) as Hlt. rewrite Hv in Hlt.
  destruct Hhead as [Hnil|[d [ds [Heq Hd]]]].
  - rewrite Hnil in Hv. unfold value_be in Hv. simpl in Hv.
    pose proof (N.pow_nonzero b (N.of_nat k) ltac:(lia)). lia.
  - pose proof (value_be_ge b d ds Hd) as Hge. rewrite <- Heq, Hv in Hge.
    rewrite Heq in Hlt |- *. simpl length in Hlt |- *.
    assert (H1 : (N.of_nat (length ds) < N.of_nat (S k))%N).
    { apply (N.pow_lt_mono_r_iff b); [lia|]. lia. }
    assert (H2 : (N.of_nat k < N.of_nat (S (length ds)))%N).
    { apply (N.pow_lt_mono_r_iff b); [lia|]. lia. }
    lia.
Qed.

Lemma length_string_of_list_ascii (l : list ascii) :
  String.length (string_of_list_ascii l) = List.length l.
Proof. induction l as [|c l IH]; [reflexivity|]. simpl. rewrite IH. reflexivity. Qed.

(** the base58btc text of 0xED 0x01 followed by 32 bytes has 47 digits *)
Lemma encode_tagged_32_length (P : list byte) :
  length P = 32 ->
  String.length (Multibase.base58btc_encode (xed :: x01 :: P)) = 47.
Proof.
  intros HP. unfold Multibase.base58btc_encode.
  rewrite length_string_of_list_ascii. simpl Multibase.count_leading. simpl repeat.
  rewrite app_nil_l, length_map.
  set (v := value_be 256 (map Byte.to_N (xed :: x01 :: P))).
  assert (Hall : Forall (fun d => (d < 256)%N) (map Byte.to_N P)).
  { apply Forall_forall. intros x Hx. apply in_map_iff in Hx.
    destruct Hx as [y [<- _]]. apply Base58Facts.to_N_lt_256. }
  pose proof (value_be_lt 256 _ Hall) as Hlt. rewrite length_map, HP in Hlt.
  assert (Hv : v = (60673 * 256 ^ 32 + value_be 256 (map Byte.to_N P))%N).
  { unfold v. cbn [map]. rewrite !value_be_cons, length_map, HP.
    change (Byte.to_N xed) with 237%N. change (Byte.to_N x01) with 1%N.
    cbn [length]. rewrite length_map, HP.
    change (N.of_nat (S 32)) with 33%N. change (N.of_nat 32) with 32%N.
    replace (256 ^ 33)%N with (256 * 256 ^ 32)%N by reflexivity. lia. }
  change (N.of_nat 32) with 32%N in Hlt.
  apply to_digits_length; [lia| |].
  - assert (Hb : (58 ^ N.of_nat 46 <= 60673 * 256 ^ 32)%N)
      by (apply N.leb_le; vm_compute; reflexivity).
    lia.
  - assert (Hb : (60674 * 256 ^ 32 <= 58 ^ N.of_nat 47)%N)
      by (apply N.leb_le; vm_compute; reflexivity).
    lia.
Qed.

End LengthFacts.

(** ** Helpers for the key pair and DID properties *)
Module ExtraFacts.
Import DidImpl KeyPairImpl.

Lemma prefix_split (p s : string) :
  String.prefix p s = true -> s = (p ++ str_drop (String.length p) s)%string.
Proof.
  revert s. induction p as [|a p IH]; intros s H; [reflexivity|].
  destruct s as [|b s]; [discriminate|]. simpl in H |- *.
  destruct (ascii_dec a b) as [<-|]; [|discriminate]. f_equal. apply IH, H.
Qed.

(** every DID that [to_public_key] accepts is the DID of the key it
    returns *)
Lemma to_public_key_canonical decode_other (d : Did) (pk : PublicKey) :
  to_public_key decode_other d = Ret pk -> from_public_key pk = Ret d.
Proof.
  destruct d as [str]. intros H.
  destruct (String.prefix DID_DVERSE_PREFIX str) eqn:Hp.
  2:{ unfold to_public_key in H. cbn [did_0] in H. rewrite Hp in H. discriminate. }
  apply prefix_split in Hp. rewrite Hp in H |- *.
  set (s := str_drop (String.length DID_DVERSE_PREFIX) str) in *. clearbody s.
  rewrite DidFacts.to_public_key_prefixed in H.
  unfold Multibase.decode in H.
  destruct (Multibase.first_char s) as [[c t]|] eqn:Es; [|discriminate].
  destruct (Multibase.from_code c) as [base|] eqn:Ec; [|discriminate].
  destruct (Multibase.base_decode decode_other base t) as [bytes|e] eqn:Eb; [|discriminate].
  destruct (Multibase.base_eq_dec base Multibase.Base58Btc) as [->|]; [|discriminate].
  apply DidFacts.from_code_code in Ec. cbn in Ec. subst c.
  apply DidFacts.first_char_z in Es. subst s.
  cbn [Multibase.base_decode] in Eb.
  destruct (Nat.ltb (length bytes) 2); [discriminate|].
  destruct (list_byte_eqb (firstn 2 bytes) MULTICODEC_ED25519_PUB) eqn:Et; [|discriminate].
  injection H as <-. apply ListByteFacts.list_byte_eqb_true in Et.
  rewrite DidFacts.from_public_key_eq. cbn [public_key_0].
  rewrite <- Et, firstn_skipn.
  rewrite (CanonicalFacts.base58btc_encode_decode t bytes Eb). reflexivity.
Qed.

Section Laws.

Context {D : Ed25519}.

(** what the proofs need of the primitive: byte conversions that round
    trip, and signatures that verify under the signer's key *)
Hypothesis signing_key_bytes :
  forall sk, signing_key_from_bytes (signing_key_to_bytes sk) = sk.
Hypothesis verifying_key_bytes :
  forall vk, verifying_key_from_bytes (verifying_key_to_bytes vk) = Ok vk.
Hypothesis signature_bytes :
  forall s, signature_from_bytes (signature_to_bytes s) = s.
Hypothesis sign_verifies :
  forall sk m, verifying_key_verify (signing_key_verifying_key sk) m (signing_key_sign sk m) = Ok tt.

Lemma generate_sign_verify (random_bytes : array 32) (message private : list byte) :
  exists kp sig,
    generate random_bytes = Ret kp /\ sign kp message = Ret sig /\
    verify (mkKeyPair (mkPrivateKey private) (public_key kp)) message sig = Ret tt.
Proof.
  eexists. eexists. split; [reflexivity|]. split.
  - unfold sign. cbn [private_key private_key_0].
    rewrite ArrayFacts.try_into_array_proj, signing_key_bytes. reflexivity.
  - unfold verify. cbn [public_key public_key_0].
    rewrite ArrayFacts.try_into_array_proj, verifying_key_bytes. cbn [lift bind].
    rewrite ArrayFacts.try_into_array_proj, signature_bytes, sign_verifies. reflexivity.
Qed.

End Laws.

End ExtraFacts.

(** * Further properties of the code *)
Module Extras.
Import DidImpl KeyPairImpl.

(** X1: [generate] returns a key pair whose private and public keys are
    both 32 bytes long. *)
Theorem X1_generate_key_lengths `{D : Ed25519} (random_bytes : array 32) :
  exists kp, generate random_bytes = Ret kp /\
             length (private_key_0 (private_key kp)) = 32 /\
             length (public_key_0 (public_key kp)) = 32.
Proof.
  eexists. split; [reflexivity|]. cbn [private_key private_key_0 public_key public_key_0].
  split; apply proj2_sig.
Qed.

(** X2: when the primitive's byte conversions round trip and its
    signatures verify under the signer's key, a freshly generated key
    pair verifies its own signature of any message. *)
Theorem X2_sign_then_verify `{D : Ed25519}
  (signing_key_bytes : forall sk, signing_key_from_bytes (signing_key_to_bytes sk) = sk)
  (verifying_key_bytes : forall vk, verifying_key_from_bytes (verifying_key_to_bytes vk) = Ok vk)
  (signature_bytes : forall s, signature_from_bytes (signature_to_bytes s) = s)
  (sign_verifies : forall sk m,
     verifying_key_verify (signing_key_verifying_key sk) m (signing_key_sign sk m) = Ok tt)
  (random_bytes : array 32) (message : list byte) :
  exists kp sig,
    generate random_bytes = Ret kp /\ sign kp message = Ret sig /\
    verify kp message sig = Ret tt.
Proof.
  destruct (ExtraFacts.generate_sign_verify signing_key_bytes verifying_key_bytes
              signature_bytes sign_verifies random_bytes message [])
    as [kp [sig [Hg [Hs Hv]]]].
  exists kp, sig. split; [exact Hg|]. split; [exact Hs|].
  injection Hg as <-. exact Hv.
Qed.

Lemma X2_sign_then_verify_witness :
  exists kp sig,
    @generate toy_ed25519 (exist _ bytes32 eq_refl) = Ret kp /\
    sign kp [x2a] = Ret sig /\ verify kp [x2a] sig = Ret tt.
Proof.
  apply (@X2_sign_then_verify toy_ed25519); reflexivity.
Defined.

(** X3: [verify] reads only the public half of the key pair: two key
    pairs with the same public key give the same result on every message
    and signature, whatever their private keys. *)
Theorem X3_verify_ignores_private_key `{D : Ed25519}
  (kp1 kp2 : KeyPair) (message signature : list byte)
  (Hpub : public_key kp1 = public_key kp2) :
  verify kp1 message signature = verify kp2 message signature.
Proof. unfold verify. rewrite Hpub. reflexivity. Qed.

Lemma X3_verify_ignores_private_key_witness :
  public_key (mkKeyPair (mkPrivateKey bytes32) (mkPublicKey bytes32))
    = public_key (mkKeyPair (mkPrivateKey (repeat x00 32)) (mkPublicKey bytes32)) /\
  @verify toy_ed25519 (mkKeyPair (mkPrivateKey bytes32) (mkPublicKey bytes32)) [x2a] (repeat x00 64)
  = verify (mkKeyPair (mkPrivateKey (repeat x00 32)) (mkPublicKey bytes32)) [x2a] (repeat x00 64).
Proof.
  split; [reflexivity|]. apply X3_verify_ignores_private_key. reflexivity.
Defined.

(** X4: a public key that is not 32 bytes long makes [verify] fail with
    the public-key-length [ArrayConversionError], whatever the message
    and the signature (the key is checked first). *)
Theorem X4_verify_public_key_length `{D : Ed25519}
  (kp : KeyPair) (message signature : list byte)
  (Hlen : length (public_key_0 (public_key kp)) <> 32) :
  verify kp message signature =
  Throw (ArrayConversionError "Public key bytes are not 32 bytes long").
Proof.
  unfold verify. rewrite (ArrayFacts.try_into_array_wrong_length 32 _ Hlen). reflexivity.
Qed.

Lemma X4_verify_public_key_length_witness :
  length (public_key_0 (public_key (mkKeyPair (mkPrivateKey bytes32) (mkPublicKey [x01])))) <> 32 /\
  @verify toy_ed25519 (mkKeyPair (mkPrivateKey bytes32) (mkPublicKey [x01])) [x2a] []
  = Throw (ArrayConversionError "Public key bytes are not 32 bytes long").
Proof.
  split; [simpl; lia|]. apply X4_verify_public_key_length. simpl; lia.
Defined.

(** X5: a 32-byte public key that the primitive rejects makes [verify]
    fail with that [DalekError], whatever the message and the signature,
    even a signature of the wrong length. *)
Theorem X5_verify_rejected_key `{D : Ed25519}
  (kp : KeyPair) (message signature : list byte)
  (pk : array 32) (e : DalekSignatureError)
  (Hpk : public_key_0 (public_key kp) = proj1_sig pk)
  (Hrej : verifying_key_from_bytes pk = Err e) :
  verify kp message signature = Throw (DalekError e).
Proof.
  unfold verify. rewrite Hpk, ArrayFacts.try_into_array_proj, Hrej. reflexivity.
Qed.


Lemma X5_verify_rejected_key_witness :
  public_key_0 (public_key (mkKeyPair (mkPrivateKey bytes32) (mkPublicKey bytes32)))
    = proj1_sig (exist (fun l => length l = 32) bytes32 eq_refl) /\
  @verifying_key_from_bytes rejecting_ed25519 (exist _ bytes32 eq_refl)
    = Err PointDecompressionError /\
  @verify rejecting_ed25519 (mkKeyPair (mkPrivateKey bytes32) (mkPublicKey bytes32)) [x2a] [x01]
  = Throw (DalekError PointDecompressionError).
Proof.
  split; [reflexivity|]. split; [reflexivity|].
  apply (@X5_verify_rejected_key rejecting_ed25519 _ _ _ (exist _ bytes32 eq_refl));
    reflexivity.
Defined.

(** X6: with a public key the primitive accepts and a 64-byte signature,
    [verify] succeeds exactly when the primitive's verification does, and
    otherwise fails with the primitive's error as [DalekError]. *)
Theorem X6_verify_defers_to_primitive `{D : Ed25519}
  (kp : KeyPair) (message signature : list byte)
  (pk : array 32) (vk : VerifyingKey) (sig : array 64)
  (Hpk : public_key_0 (public_key kp) = proj1_sig pk)
  (Hvk : verifying_key_from_bytes pk = Ok vk)
  (Hsig : signature = proj1_sig sig) :
  verify kp message signature =
  match verifying_key_verify vk message (signature_from_bytes sig) with
  | Ok _ => Ret tt
  | Err e => Throw (DalekError e)
  end.
Proof.
  unfold verify. rewrite Hpk, ArrayFacts.try_into_array_proj, Hvk. cbn [lift bind].
  rewrite Hsig, ArrayFacts.try_into_array_proj.
  destruct (verifying_key_verify vk message (signature_from_bytes sig)); reflexivity.
Qed.

Lemma X6_verify_defers_to_primitive_witness :
  public_key_0 (public_key (mkKeyPair (mkPrivateKey bytes32) (mkPublicKey bytes32)))
    = proj1_sig (exist (fun l => length l = 32) bytes32 eq_refl) /\
  @verifying_key_from_bytes toy_ed25519 (exist _ bytes32 eq_refl)
    = Ok (exist _ bytes32 eq_refl) /\
  repeat x00 64 = proj1_sig zeros64 /\
  @verify toy_ed25519 (mkKeyPair (mkPrivateKey bytes32) (mkPublicKey bytes32)) [x2a]
    (repeat x00 64) = Ret tt.
Proof.
  split; [reflexivity|]. split; [reflexivity|]. split; [reflexivity|].
  rewrite (@X6_verify_defers_to_primitive toy_ed25519 _ _ _
             (exist _ bytes32 eq_refl) (exist _ bytes32 eq_refl) zeros64);
    reflexivity.
Defined.

(** X7: the DID of a 32-byte public key starts with ["did:dverse:z"] and
    is exactly 59 characters long. *)
Theorem X7_did_shape_32 (P : list byte) (HP : length P = 32) :
  exists d, from_public_key (mkPublicKey P) = Ret d /\
            String.prefix "did:dverse:z" (did_0 d) = true /\
            String.length (did_0 d) = 59.
Proof.
  eexists. split; [apply DidFacts.from_public_key_eq|]. cbn [did_0 public_key_0].
  change (MULTICODEC_ED25519_PUB ++ P) with (xed :: x01 :: P).
  split.
  - change (DID_DVERSE_PREFIX ++ String "z" ?t)%string with ("did:dverse:z" ++ t)%string.
    apply DidFacts.prefix_app_gen.
  - change (String.length (DID_DVERSE_PREFIX ++ String "z" ?t))
      with (12 + String.length t). rewrite LengthFacts.encode_tagged_32_length by exact HP.
    reflexivity.
Qed.

Lemma X7_did_shape_32_witness :
  length bytes32 = 32 /\
  exists d, from_public_key (mkPublicKey bytes32) = Ret d /\
            String.prefix "did:dverse:z" (did_0 d) = true /\
            String.length (did_0 d) = 59.
Proof. split; [reflexivity|]. apply X7_did_shape_32. reflexivity. Defined.

(** X8: distinct public keys have distinct DIDs ([from_public_key] is
    injective). *)
Theorem X8_from_public_key_injective (pk1 pk2 : PublicKey)
  (H : from_public_key pk1 = from_public_key pk2) : pk1 = pk2.
Proof.
  destruct pk1 as [B1], pk2 as [B2].
  destruct (DidFacts.roundtrip no_other_decoders B1) as [d1 [E1 R1]].
  destruct (DidFacts.roundtrip no_other_decoders B2) as [d2 [E2 R2]].
  rewrite E1, E2 in H. injection H as <-. rewrite R1 in R2. injection R2 as R2. rewrite R2. reflexivity.
Qed.

Lemma X8_from_public_key_injective_witness :
  from_public_key (mkPublicKey bytes32) = from_public_key (mkPublicKey bytes32) /\
  mkPublicKey bytes32 = mkPublicKey bytes32.
Proof. split; [reflexivity|]. apply X8_from_public_key_injective. reflexivity. Defined.

(** X9: [to_public_key] accepts exactly the DIDs that [from_public_key]
    produces: it returns [pk] from [d] if and only if [d] is the DID of
    [pk]. *)
Theorem X9_to_public_key_exact
  (decode_other : Multibase.Base -> string -> result (list byte) Multibase.Error)
  (d : Did) (pk : PublicKey) :
  to_public_key decode_other d = Ret pk <-> from_public_key pk = Ret d.
Proof.
  split; [apply ExtraFacts.to_public_key_canonical|].
  destruct pk as [B]. destruct (DidFacts.roundtrip decode_other B) as [d' [E R]].
  rewrite E. intros H. injection H as <-. exact R.
Qed.

Lemma b58_digits_invalid (cs : list ascii) (c : ascii) :
  In c cs -> Multibase.b58_lookup c = None -> Multibase.b58_digits cs = None.
Proof.
  induction cs as [|c' cs IH]; intros Hin Hc; [destruct Hin|].
  simpl. destruct Hin as [<-|Hin]; [rewrite Hc; reflexivity|].
  destruct (Multibase.b58_lookup c'); [|reflexivity]. rewrite (IH Hin Hc). reflexivity.
Qed.

(** X10: after the prefix, an empty text, or ['z'] followed by a
    character outside the base58btc alphabet, makes [to_public_key] fail
    with [MultibaseError InvalidBaseString]. *)
Theorem X10_invalid_multibase_text
  (decode_other : Multibase.Base -> string -> result (list byte) Multibase.Error)
  (s : string)
  (Hs : s = EmptyString \/
        exists t c, s = String "z" t /\ In c (list_ascii_of_string t) /\
                    Multibase.b58_lookup c = None) :
  to_public_key decode_other (mkDid (DID_DVERSE_PREFIX ++ s)) =
  Throw (MultibaseError Multibase.InvalidBaseString).
Proof.
  rewrite DidFacts.to_public_key_prefixed.
  destruct Hs as [->|[t [c [-> [Hin Hc]]]]]; [reflexivity|].
  rewrite DidFacts.decode_z. unfold Multibase.base58btc_decode.
  rewrite (b58_digits_invalid _ c Hin Hc). reflexivity.
Qed.

Lemma X10_invalid_multibase_text_witness :
  (String "z" "0" = EmptyString \/
   exists t c, String "z" "0" = String "z" t /\ In c (list_ascii_of_string t) /\
               Multibase.b58_lookup c = None) /\
  to_public_key no_other_decoders (mkDid "did:dverse:z0")
  = Throw (MultibaseError Multibase.InvalidBaseString).
Proof.
  assert (H : String "z" "0" = EmptyString \/
              exists t c, String "z" "0" = String "z" t /\ In c (list_ascii_of_string t) /\
                          Multibase.b58_lookup c = None).
  { right. exists "0"%string, "0"%char. split; [reflexivity|].
    split; [left; reflexivity | vm_compute; reflexivity]. }
  split; [exact H|].
  exact (X10_invalid_multibase_text no_other_decoders (String "z" "0") H).
Defined.

(** X11: the only errors [to_public_key] returns are [InvalidDidFormat],
    [MultibaseError], [UnsupportedMultibase] and [UnsupportedMulticodec];
    it never returns the other variants of [IdentityError] (such as
    [DecodingError] or [InvalidKey]). *)
Theorem X11_to_public_key_error_kinds
  (decode_other : Multibase.Base -> string -> result (list byte) Multibase.Error)
  (d : Did) (e : IdentityError)
  (H : to_public_key decode_other d = Throw e) :
  match e with
  | InvalidDidFormat _ | MultibaseError _
  | UnsupportedMultibase _ | UnsupportedMulticodec _ => True
  | _ => False
  end.
Proof.
  destruct d as [str].
  destruct (String.prefix DID_DVERSE_PREFIX str) eqn:Hp.
  2:{ unfold to_public_key in H. cbn [did_0] in H. rewrite Hp in H.
      injection H as <-. exact I. }
  apply ExtraFacts.prefix_split in Hp. rewrite Hp in H.
  rewrite DidFacts.to_public_key_prefixed in H.
  destruct (Multibase.decode decode_other _) as [[base bytes]|e'];
    [|injection H as <-; exact I].
  destruct (Multibase.base_eq_dec base Multibase.Base58Btc); [|injection H as <-; exact I].
  destruct (Nat.ltb (length bytes) 2); [discriminate|].
  destruct (list_byte_eqb _ _); [discriminate | injection H as <-; exact I].
Qed.

Lemma X11_to_public_key_error_kinds_witness :
  to_public_key no_other_decoders (mkDid "did:dverse:z6NABC")
    = Throw (UnsupportedMulticodec [x03; x9e]) /\ True.
Proof.
  split; [reflexivity|].
  exact (X11_to_public_key_error_kinds no_other_decoders (mkDid "did:dverse:z6NABC")
           (UnsupportedMulticodec [x03; x9e]) eq_refl).
Defined.

(** X12: when the primitive's byte conversions round trip and its
    signatures verify under the signer's key, a signature made by a
    generated key pair verifies under the public key recovered from that
    pair's DID, paired with any private key. *)
Theorem X12_verify_with_key_from_did `{D : Ed25519}
  (signing_key_bytes : forall sk, signing_key_from_bytes (signing_key_to_bytes sk) = sk)
  (verifying_key_bytes : forall vk, verifying_key_from_bytes (verifying_key_to_bytes vk) = Ok vk)
  (signature_bytes : forall s, signature_from_bytes (signature_to_bytes s) = s)
  (sign_verifies : forall sk m,
     verifying_key_verify (signing_key_verifying_key sk) m (signing_key_sign sk m) = Ok tt)
  (decode_other : Multibase.Base -> string -> result (list byte) Multibase.Error)
  (random_bytes : array 32) (message dummy_private : list byte) :
  exists kp sig d pk,
    generate random_bytes = Ret kp /\ sign kp message = Ret sig /\
    from_public_key (public_key kp) = Ret d /\
    to_public_key decode_other d = Ret pk /\
    verify (mkKeyPair (mkPrivateKey dummy_private) pk) message sig = Ret tt.
Proof.
  destruct (ExtraFacts.generate_sign_verify signing_key_bytes verifying_key_bytes
              signature_bytes sign_verifies random_bytes message dummy_private)
    as [kp [sig [Hg [Hs Hv]]]].
  destruct (public_key kp) as [B] eqn:Epk.
  destruct (DidFacts.roundtrip decode_other B) as [d [Ed Rd]].
  exists kp, sig, d, (mkPublicKey B).
  split; [exact Hg|]. split; [exact Hs|]. split; [rewrite Epk; exact Ed|]. split; [exact Rd|].
  exact Hv.
Qed.

Lemma X12_verify_with_key_from_did_witness :
  exists kp sig d pk,
    @generate toy_ed25519 (exist _ bytes32 eq_refl) = Ret kp /\ sign kp [x2a] = Ret sig /\
    from_public_key (public_key kp) = Ret d /\
    to_public_key no_other_decoders d = Ret pk /\
    verify (mkKeyPair (mkPrivateKey (repeat x00 32)) pk) [x2a] sig = Ret tt.
Proof.
  apply (@X12_verify_with_key_from_did toy_ed25519); reflexivity.
Defined.

End Extras.
